(** * Example-manifest generation of upjet: pkg/examples/example.go

    A shallow embedding of the example generator (field transformation,
    secret-reference extraction, manifest writing and the store phase)
    together with the properties its specification states about it.

    Conventions of the embedding:
    - a Go [map[string]T] is a [gmap string T]; the order in which a
      [range] loop visits a map is not fixed by Go and is an explicit
      argument wherever the loop body can observe it;
    - a Go [any] holding example data is a [value];
    - a run-time panic (index out of range, failed type assertion) and a
      returned [error] are distinct outcomes;
    - an [error] is carried by its message, as [errors.Wrap] builds it. *)

From Stdlib Require Import Ascii String.
From stdpp Require Import gmap strings list fin_maps sorting.

#[local] Set Warnings "-register-all".
#[local] Open Scope string_scope.
#[local] Open Scope nat_scope.

(** ** Go strings *)

Module GoStrings.

Definition newline : ascii := "010"%char.
Definition dquote : ascii := "034"%char.
Definition underscore : ascii := "_"%char.
Definition hyphen : ascii := "-"%char.
Definition dot : ascii := "."%char.
Definition slash : ascii := "/"%char.

(** [strings.HasPrefix s p] *)
Fixpoint hasPrefix (s p : string) : bool :=
  match p, s with
  | EmptyString, _ => true
  | String _ _, EmptyString => false
  | String a p', String b s' => if Ascii.eqb a b then hasPrefix s' p' else false
  end.

(** [s[n:]] for [n <= len(s)] *)
Fixpoint dropStr (n : nat) (s : string) : string :=
  match n, s with
  | O, _ => s
  | S n', String _ s' => dropStr n' s'
  | S _, EmptyString => EmptyString
  end.

(** [strings.Split(s, sep)] for a one-byte separator: the pieces between
    the separators, [n+1] of them for [n] separators. *)
Fixpoint split (sep : ascii) (s : string) : list string :=
  match s with
  | EmptyString => [EmptyString]
  | String c s' =>
      if Ascii.eqb c sep then EmptyString :: split sep s'
      else match split sep s' with
           | hd :: tl => String c hd :: tl
           | [] => [String c EmptyString]
           end
  end.

(** [strings.Join(l, sep)] *)
Definition join (l : list string) (sep : string) : string := String.concat sep l.

(** [strings.ToLower] on the ASCII range; bytes outside it are kept. *)
Definition lowerAscii (c : ascii) : ascii :=
  let n := nat_of_ascii c in
  if (65 <=? n)%nat && (n <=? 90)%nat then ascii_of_nat (n + 32) else c.

Fixpoint mapStr (f : ascii -> ascii) (s : string) : string :=
  match s with
  | EmptyString => EmptyString
  | String c s' => String (f c) (mapStr f s')
  end.

Definition toLower (s : string) : string := mapStr lowerAscii s.

(** [strings.ReplaceAll(s, old, new)] for one-byte [old] and [new]. *)
Definition replaceAll (old new : ascii) (s : string) : string :=
  mapStr (fun c => if Ascii.eqb c old then new else c) s.

(** [l[n:]]: Go panics when [n] exceeds the length. *)
Definition sliceFrom {A} (n : nat) (l : list A) : option (list A) :=
  if (n <=? length l)%nat then Some (drop n l) else None.

(** The file part of [filepath.Split] with [/] as separator: what
    follows the last separator. *)
Fixpoint baseName (s : string) : string :=
  match s with
  | EmptyString => EmptyString
  | String c s' =>
      if existsb (Ascii.eqb slash) (list_ascii_of_string s') then baseName s'
      else if Ascii.eqb c slash then s' else s
  end.

(** *** Regular expressions of the shape [open(.+)close]

    Both patterns of this package are a literal, a greedy [.+] group and
    a literal.  Go's matcher is leftmost-first: the earliest start wins,
    and the group is then as long as possible; [.] does not match a
    newline. *)

(** The longest non-empty, newline-free [x] such that [x ++ cl] is a
    prefix of [s]. *)
Fixpoint greedyUntil (cl : string) (s : string) : option string :=
  match s with
  | EmptyString => None
  | String c s' =>
      if Ascii.eqb c newline then None
      else match greedyUntil cl s' with
           | Some x => Some (String c x)
           | None => if hasPrefix s' cl then Some (String c EmptyString) else None
           end
  end.

Fixpoint findGroup (op cl : string) (s : string) : option string :=
  match (if hasPrefix s op then greedyUntil cl (dropStr (String.length op) s) else None) with
  | Some x => Some x
  | None => match s with
            | EmptyString => None
            | String _ s' => findGroup op cl s'
            end
  end.

(** [regexp.FindStringSubmatch]: [nil] without a match, else the whole
    match followed by the group. *)
Definition findStringSubmatch (op cl : string) (s : string) : list string :=
  match findGroup op cl s with
  | Some x => [op +:+ x +:+ cl; x]
  | None => []
  end.

End GoStrings.
Import GoStrings.

(** ** Constants of the package *)

Definition labelExampleName : string := "testing.upbound.io/example-name".
Definition defaultExampleName : string := "example".
Definition defaultNamespace : string := "upbound-system".

(** [reFile = regexp.MustCompile(`file\("(.+)"\)`)] *)
Definition reFile_FindStringSubmatch (s : string) : list string :=
  findStringSubmatch ("file(" +:+ String dquote EmptyString)
                     (String dquote ")") s.

(** ** Example data *)

(** What a Go [any] of an example tree can hold: the JSON shapes the
    parser produces, and the two typed containers the rewrite pass itself
    creates.  A number is carried by its [%v] rendering, the only way this
    package looks at it. *)
Inductive value : Type :=
| VNil
| VBool (b : bool)
| VNum (text : string)
| VStr (s : string)
| VList (l : list value)                    (* []any *)
| VMap (m : gmap string value)              (* map[string]any *)
| VMapList (l : list (gmap string value))   (* []map[string]any *)
| VStrMap (m : gmap string string).         (* map[string]string *)

Abbreviation Params := (gmap string value).

(** [sort.Strings]: increasing byte-wise order. *)
Definition sortStrings (l : list string) : list string := merge_sort String.le l.

(** [fmt.Sprintf("%v", v)]: maps print their keys in sorted order. *)
Definition fmtEntries (m : gmap string string) : string :=
  join (map (fun k => k +:+ ":" +:+ default "" (m !! k))
            (sortStrings (map fst (map_to_list m)))) " ".

Fixpoint fmtV (v : value) : string :=
  match v with
  | VNil => "<nil>"
  | VBool true => "true"
  | VBool false => "false"
  | VNum t => t
  | VStr s => s
  | VList l => "[" +:+ join (map fmtV l) " " +:+ "]"
  | VMap m => "map[" +:+ fmtEntries (fmtV <$> m) +:+ "]"
  | VMapList l =>
      "[" +:+ join (map (fun m => "map[" +:+ fmtEntries (fmtV <$> m) +:+ "]") l) " " +:+ "]"
  | VStrMap m => "map[" +:+ fmtEntries m +:+ "]"
  end.

(** ** Packages declared outside this source

    The generator calls into [pkg/types/name], [pkg/registry/reference],
    [pkg/config] and [pkg/registry], none of which is part of the source
    at hand.  Each is a module here.  Their operations are the fields of a
    class, so that the generator is verified against any implementation
    of them; their data is modelled from the specification. *)

Module name.

Class Package : Type := {
  Name : Type;
  NewFromSnake : string -> Name;
  LowerCamelComputed : Name -> string;
  ReferenceFieldName : Name -> bool -> string -> Name;
  SelectorFieldName : Name -> string -> Name
}.

End name.

Module schema.

(** [schema.ValueType] of the Terraform SDK. *)
Inductive ValueType : Type :=
| TypeInvalid | TypeBool | TypeInt | TypeFloat | TypeString
| TypeList | TypeMap | TypeSet.

#[global] Instance ValueType_eq_dec : EqDecision ValueType.
Proof. solve_decision. Defined.

(** Modelled from the spec: the Terraform SDK's [schema.Schema] and
    [tjtypes.IsObservation] are declared outside src; section 6 gives
    the result of a schema lookup as whether the field is observed-only,
    whether it is sensitive, and its cardinality. *)
Record Schema : Type := {
  Observed : bool;
  Sensitive : bool;
  Type_ : ValueType
}.

End schema.

Module tjtypes.

Definition IsObservation (s : schema.Schema) : bool := schema.Observed s.

End tjtypes.

Module registry.

(** One declared example of a resource: its name, its parameter tree
    ([Paved.UnstructuredContent()]) and the raw parameter blobs of the
    examples it depends on, by dependency identifier. *)
Record ResourceExample : Type := {
  Name : string;
  Paved : Params;
  Dependencies : gmap string string
}.

Record Resource : Type := {
  Examples : list ResourceExample
}.

End registry.

Module config.

(** Modelled from the spec: [config.Reference] is declared in
    pkg/config, outside src; section 3 describes it as the reference
    metadata of a field path: what is referenced and the target field
    names of the rewritten reference and selector forms.
    [config.Reference{}] is the value with every field empty. *)
Record Reference : Type := {
  TerraformName : string;
  RefFieldName : string;
  SelectorFieldName : string
}.

#[global] Instance Reference_eq_dec : EqDecision Reference.
Proof. solve_decision. Defined.

Definition zeroReference : Reference :=
  {| TerraformName := ""; RefFieldName := ""; SelectorFieldName := "" |}.

(** Modelled from the spec: [config.Resource], [config.GetSchema] and
    the SDK's [schema.Resource] are declared outside src; section 6
    gives the schema lookup as a partial function from hierarchical
    paths to field schemas, and the resource schema is carried here as
    that function.  [MetaResource] is [None] for a nil pointer. *)
Record Resource : Type := {
  Name : string;
  Kind : string;
  OmittedFields : list string;              (* ExternalName.OmittedFields *)
  References : gmap string Reference;
  TerraformResource : string -> option schema.Schema;
  MetaResource : option registry.Resource
}.

Definition GetSchema (tr : string -> option schema.Schema) (fieldpath : string)
  : option schema.Schema := tr fieldpath.

(** [r.References[fieldPath]]: indexing a Go map yields the zero value
    for a missing key. *)
Definition referenceOf (r : Resource) (fieldPath : string) : Reference :=
  default zeroReference (References r !! fieldPath).

End config.

(** What a call can come to: a result, a returned [error] (its message),
    or a run-time panic. *)
Inductive outcome (A : Type) : Type :=
| Ok (a : A)
| Error (msg : string)
| Panic.
Arguments Ok {A} a.
Arguments Error {A} msg.
Arguments Panic {A}.

#[global] Instance outcome_bind : MBind outcome := fun A B k m =>
  match m with
  | Ok a => k a
  | Error msg => Error msg
  | Panic => Panic
  end.

#[global] Instance outcome_ret : MRet outcome := fun A a => Ok a.

(** [errors.Wrap(err, msg)] and [errors.Wrapf]: the message, a colon and
    the message of the cause; [nil] stays [nil]. *)
Definition wrap {A} (msg : string) (m : outcome A) : outcome A :=
  match m with
  | Error cause => Error (msg +:+ ": " +:+ cause)
  | _ => m
  end.

Module reference.

Definition Wildcard : string := "*".

(** Modelled from the spec: [reference.PavedWithManifest] is declared
    in pkg/registry/reference, outside src; section 3 lists what it
    holds: the document, the prefix path of the parameter subtree, the
    owning resource configuration, group and version, the assigned
    example name and the target file path.  A [*PavedWithManifest] is
    shared through the maps that hold it; the model keeps one copy per
    key and writes it back after each call that mutates it. *)
Record PavedWithManifest : Type := {
  Paved : Params;
  ManifestPath : string;
  ParamsPrefix : list string;
  Config : config.Resource;
  Group : string;
  Version : string;
  ExampleName : string
}.

(** Modelled from the spec: [reference.ResolutionContext] is declared in
    pkg/registry/reference, outside src; section 3 gives it as a mapping
    from resource identifiers to paved manifests and a flag enabling
    wildcard matching. *)
Record ResolutionContext : Type := {
  WildcardNames : bool;
  Context : gmap string PavedWithManifest
}.

(** The parsing side of the package. *)
Class Syntax : Type := {
  ReRef_FindStringSubmatch : string -> list string;
  Parts : Type;
  Parts_Resource : Parts -> string;
  Parts_ExampleName : Parts -> string;
  MatchRefParts : string -> option Parts;
  NewRefParts : string -> string -> Parts;
  NewRefPartsFromResourceName : string -> Parts;
  GetResourceName : Parts -> bool -> string
}.

(** The resolving side.  [ResolveReferencesOfPaved] mutates the
    manifest it is given and may mutate those of the context: it yields
    both as the call leaves them. *)
Class Injector : Type := {
  ResolveReferencesOfPaved :
    PavedWithManifest -> ResolutionContext ->
    outcome (PavedWithManifest * ResolutionContext);
  PrepareLocalResolutionContext :
    registry.ResourceExample -> string -> outcome ResolutionContext
}.

End reference.

(** ** Field transformation *)

Definition getHierarchicalName (prefix name : string) : string :=
  if decide (prefix = "") then name else prefix +:+ "." +:+ name.

Definition isStatus (r : config.Resource) (attr : string) : bool :=
  match config.GetSchema (config.TerraformResource r) attr with
  | None => false
  | Some s => tjtypes.IsObservation s
  end.

Definition getRefField (v : value) (ref : Params) : value :=
  match v with
  | VList _ => VList [VMap ref]
  | _ => VMap ref
  end.

(** The order in which the [range] loop of the rewrite pass produces
    keys, for the prefix of the call and the map as the loop finds it.
    The loop deletes and inserts while it ranges: Go then produces every
    entry that is there from the start and not deleted before its turn,
    and may or may not produce an entry created on the way.  A schedule
    lists the keys in the order of their turns; a key is listed again for
    each further turn that a re-created entry is given.  Every property
    below is stated for an arbitrary schedule. *)
Definition Schedule : Type := string -> Params -> list string.

(** Whether the second loop has anything to recurse into in [v]: a
    nested tree, or a sequence with an element that is one. *)
Definition holdsTree (v : value) : bool :=
  match v with
  | VMap _ => true
  | VList l => existsb (fun e => match e with VMap _ => true | _ => false end) l
  | _ => false
  end.

(** A schedule that produces at least every key the loop starts with. *)
Definition covers (sched : Schedule) : Prop :=
  ∀ (namePrefix : string) (params : Params) (n : string),
    is_Some (params !! n) → n ∈ sched namePrefix params.

Section Transform.
Context `{name.Package} `{reference.Syntax}.

(** [None] stands for a run-time panic of an index or slice
    expression. *)
Definition getSecretRef (v : value) : option (string * string) :=
  let secretName := "example-secret" in
  let secretKey := "example-key" in
  match v with
  | VStr s =>
      let g := reference.ReRef_FindStringSubmatch s in
      if decide (length g ≠ 2) then Some (secretName, secretKey)
      else
        g1 ← g !! 1%nat;
        let f := reFile_FindStringSubmatch g1 in
        if decide (length f = 2) then
          f1 ← f !! 1%nat;
          Some (secretName, "attribute." +:+ baseName f1)
        else
          let parts := split dot g1 in
          if decide (length parts < 3) then Some (secretName, secretKey)
          else
            p0 ← parts !! 0%nat;
            words ← sliceFrom 1 (split underscore p0);
            rest ← sliceFrom 2 parts;
            Some ("example-" +:+ join words "-", "attribute." +:+ join rest ".")
  | _ => Some (secretName, secretKey)
  end.

(** The type assertion [v.([]any)] of the source cannot fail at its
    only call site, under [case []any]; the slice is passed as such. *)
Definition getNameRefField (arr : list value) : value :=
  VMapList
    (map (fun r =>
            match reference.MatchRefParts (fmtV r) with
            | Some parts => {[ "name" := VStr (reference.Parts_ExampleName parts) ]}
            | None => {[ "name" := VStr defaultExampleName ]}
            end) arr).

Definition getSelectorField (refVal : value) : value :=
  let ref : gmap string string :=
    match reference.MatchRefParts (fmtV refVal) with
    | Some parts => <[ labelExampleName := reference.Parts_ExampleName parts ]>
                      {[ labelExampleName := defaultExampleName ]}
    | None => {[ labelExampleName := defaultExampleName ]}
    end in
  VMap {[ "matchLabels" := VStrMap ref ]}.

Variable r : config.Resource.
Variable omittedFields : list string.
Variable sched : Schedule.

(** First loop: the key is deleted when its path is an observed-only
    schema field or an entry of [omittedFields].  Only the key of the
    current iteration is deleted, so every key is visited once and the
    loop is a filter on keys. *)
Definition elided (namePrefix n : string) : bool :=
  let hName := getHierarchicalName namePrefix n in
  isStatus r hName || bool_decide (hName ∈ omittedFields).

Definition elisionPass {A} (namePrefix : string) (params : gmap string A) : gmap string A :=
  filter (fun kv => elided namePrefix kv.1 = false) params.

(** Body of the third loop for the entry [n], [v]. *)
Definition rewriteField (namePrefix n : string) (v : value) (params : Params) : Params :=
  let fieldPath := getHierarchicalName namePrefix n in
  match config.GetSchema (config.TerraformResource r) fieldPath with
  | None => params
  | Some sch =>
      let params := delete n params in
      let fn := name.NewFromSnake n in
      if schema.Sensitive sch then
        (* getSecretRef never panics: getSecretRef_total *)
        let '(secretName, secretKey) :=
          default ("example-secret", "example-key") (getSecretRef v) in
        <[ name.LowerCamelComputed fn +:+ "SecretRef" :=
             getRefField v (<[ "name" := VStr secretName ]>
                            (<[ "namespace" := VStr defaultNamespace ]>
                             {[ "key" := VStr secretKey ]})) ]> params
      else if decide (config.referenceOf r fieldPath ≠ config.zeroReference) then
        match v with
        | VList arr =>
            let l := bool_decide (schema.Type_ sch = schema.TypeList)
                     || bool_decide (schema.Type_ sch = schema.TypeSet) in
            let ref := name.ReferenceFieldName fn l
                         (config.RefFieldName (config.referenceOf r fieldPath)) in
            <[ name.LowerCamelComputed ref := getNameRefField arr ]> params
        | _ =>
            let sel := name.SelectorFieldName fn
                         (config.SelectorFieldName (config.referenceOf r fieldPath)) in
            <[ name.LowerCamelComputed sel := getSelectorField v ]> params
        end
      else
        <[ name.LowerCamelComputed fn := v ]> params
  end.

(** The entry that the body inserts for [n], [v], when the field is
    part of the schema. *)
Definition rewritten (namePrefix n : string) (v : value) : option (string * value) :=
  let fieldPath := getHierarchicalName namePrefix n in
  sch ← config.GetSchema (config.TerraformResource r) fieldPath;
  let fn := name.NewFromSnake n in
  Some
    (if schema.Sensitive sch then
       let '(secretName, secretKey) :=
         default ("example-secret", "example-key") (getSecretRef v) in
       (name.LowerCamelComputed fn +:+ "SecretRef",
        getRefField v (<[ "name" := VStr secretName ]>
                       (<[ "namespace" := VStr defaultNamespace ]>
                        {[ "key" := VStr secretKey ]})))
     else if decide (config.referenceOf r fieldPath ≠ config.zeroReference) then
       match v with
       | VList arr =>
           let l := bool_decide (schema.Type_ sch = schema.TypeList)
                    || bool_decide (schema.Type_ sch = schema.TypeSet) in
           (name.LowerCamelComputed
              (name.ReferenceFieldName fn l
                 (config.RefFieldName (config.referenceOf r fieldPath))),
            getNameRefField arr)
       | _ =>
           (name.LowerCamelComputed
              (name.SelectorFieldName fn
                 (config.SelectorFieldName (config.referenceOf r fieldPath))),
            getSelectorField v)
       end
     else (name.LowerCamelComputed fn, v)).

(** The third loop over the keys [order] that the iterator produces: a
    key is produced only while it is in the map, with its current
    value. *)
Definition rangeRewrite (namePrefix : string) (order : list string) (params : Params) : Params :=
  foldl (fun ps n =>
           match ps !! n with
           | Some v => rewriteField namePrefix n v ps
           | None => ps
           end) params order.

Definition rewritePass (namePrefix : string) (params : Params) : Params :=
  rangeRewrite namePrefix (sched namePrefix params) params.

(** The three loops of one call, over a level whose values await the
    hierarchical name under which the second loop recurses into them. *)
Definition levelPasses (namePrefix : string) (level : gmap string (string -> value)) : Params :=
  rewritePass namePrefix
    (map_imap (fun n f => Some (f (getHierarchicalName namePrefix n)))
              (elisionPass namePrefix level)).

(** Second loop, on one value found under the hierarchical name [hName]:
    a nested tree is transformed, and so is every element of a sequence
    that is a tree; anything else is left as it is.  The trees are
    mutated in place in the source; an example tree shares no subtree,
    so the result is the tree with its subtrees replaced. *)
Fixpoint recurse (v : value) {struct v} : string -> value :=
  match v with
  | VMap pT => fun hName => VMap (levelPasses hName (recurse <$> pT))
  | VList pT => fun hName =>
      VList (map (fun e => match e with
                           | VMap eM => VMap (levelPasses hName (recurse <$> eM))
                           | _ => e
                           end) pT)
  | _ => fun _ => v
  end.

Definition transformFields (params : Params) (namePrefix : string) : Params :=
  levelPasses namePrefix (recurse <$> params).

End Transform.

(** ** Manifests and the store phase *)

(** What the generator needs from outside the module: paths and files,
    the YAML encoder and the parser of the dependency blobs.  A file
    operation yields its error, if any, and the file system as it leaves
    it. *)
Class Platform : Type := {
  filepath_Dir : string -> string;
  FileSystem : Type;
  os_MkdirAll : string -> FileSystem -> option string * FileSystem;
  ioutil_WriteFile : string -> string -> FileSystem -> option string * FileSystem;
  yaml_Marshal : Params -> outcome string;
  TFParser_Unmarshal : string -> outcome Params
}.

(** [fieldpath.Paved] of crossplane-runtime, for paths of field names. *)
Module fieldpath.

Fixpoint GetValue (path : list string) (object : Params) : outcome value :=
  match path with
  | [] => Error "unexpected end of path"
  | field :: rest =>
      match object !! field with
      | None => Error (field +:+ ": no such field")
      | Some v =>
          match rest with
          | [] => Ok v
          | _ => match v with
                 | VMap m => GetValue rest m
                 | _ => Error (field +:+ ": not an object")
                 end
          end
      end
  end.

Fixpoint SetValue (path : list string) (v : value) (object : Params) : outcome Params :=
  match path with
  | [] => Error "cannot set value at an empty path"
  | [field] => Ok (<[ field := v ]> object)
  | field :: rest =>
      match object !! field with
      | None => m ← SetValue rest v ∅; Ok (<[ field := VMap m ]> object)
      | Some (VMap m) => m ← SetValue rest v m; Ok (<[ field := VMap m ]> object)
      | Some _ => Error (field +:+ " is not an object")
      end
  end.

End fieldpath.

Definition dns1123Name (name : string) : string :=
  replaceAll underscore hyphen (toLower name).

(** [%q] of a text with nothing to escape. *)
Definition quoted (s : string) : string :=
  String dquote (s +:+ String dquote EmptyString).

Definition documentSeparator : string :=
  String newline ("---" +:+ String newline (String newline EmptyString)).

Record Generator : Type := {
  rootDir : string;
  configResources : gmap string config.Resource;
  resources : gmap string reference.PavedWithManifest
}.

Definition withPaved (paved : Params) (pm : reference.PavedWithManifest)
  : reference.PavedWithManifest :=
  {| reference.Paved := paved;
     reference.ManifestPath := reference.ManifestPath pm;
     reference.ParamsPrefix := reference.ParamsPrefix pm;
     reference.Config := reference.Config pm;
     reference.Group := reference.Group pm;
     reference.Version := reference.Version pm;
     reference.ExampleName := reference.ExampleName pm |}.

Definition withExampleName (exampleName : string) (pm : reference.PavedWithManifest)
  : reference.PavedWithManifest :=
  {| reference.Paved := reference.Paved pm;
     reference.ManifestPath := reference.ManifestPath pm;
     reference.ParamsPrefix := reference.ParamsPrefix pm;
     reference.Config := reference.Config pm;
     reference.Group := reference.Group pm;
     reference.Version := reference.Version pm;
     reference.ExampleName := exampleName |}.

Definition withResources (rs : gmap string reference.PavedWithManifest) (eg : Generator)
  : Generator :=
  {| rootDir := rootDir eg; configResources := configResources eg; resources := rs |}.

(** [Write] of a [bytes.Buffer]: the bytes are appended, and the error is
    always nil. *)
Definition bufferWrite (p : string) (buffer : string) : outcome string :=
  Ok (buffer +:+ p).

(** The document that [writeManifest] marshals: [u] once [depends_on] is
    deleted from its [spec.forProvider].  Each type assertion of the
    source panics when the field is missing or is not a tree. *)
Definition stripDependsOn (u : Params) : outcome Params :=
  match u !! "spec" with
  | Some (VMap spec) =>
      match spec !! "forProvider" with
      | Some (VMap forProvider) =>
          Ok (<[ "spec" := VMap (<[ "forProvider" :=
                                      VMap (delete "depends_on" forProvider) ]> spec) ]> u)
      | _ => Panic
      end
  | _ => Panic
  end.

Section Store.
Context `{name.Package} `{reference.Syntax} `{reference.Injector} `{Platform}.

(** The order of the rewrite loops of [transformFields]. *)
Variable sched : Schedule.
(** The order in which [range re.Dependencies] produces the keys. *)
Variable rangeDependencies : gmap string string -> list string.

Definition paveCRManifest (exampleParams : Params) (r : config.Resource)
    (eName group version : string) : reference.PavedWithManifest :=
  let exampleParams := transformFields r (config.OmittedFields r) sched exampleParams "" in
  let example : Params :=
    <[ "apiVersion" := VStr (group +:+ "/" +:+ version) ]>
    (<[ "kind" := VStr (config.Kind r) ]>
     (<[ "metadata" := VMap {[ "labels" := VStrMap {[ labelExampleName := eName ]} ]} ]>
      {[ "spec" := VMap {[ "forProvider" := VMap exampleParams ]} ]})) in
  {| reference.Paved := example;
     reference.ManifestPath := "";
     reference.ParamsPrefix := ["spec"; "forProvider"];
     reference.Config := r;
     reference.Group := group;
     reference.Version := version;
     reference.ExampleName := "" |}.

(** The [io.Writer] is given by its [Write], which yields the writer
    after the bytes or an error.  The call yields the writer, the
    manifest and the context as it leaves them. *)
Definition writeManifest {W : Type} (Write : string -> W -> outcome W) (writer : W)
    (pm : reference.PavedWithManifest) (resolutionContext : reference.ResolutionContext)
  : outcome (W * reference.PavedWithManifest * reference.ResolutionContext) :=
  '(pm, resolutionContext) ←
    wrap "cannot resolve references of resource"
         (reference.ResolveReferencesOfPaved pm resolutionContext);
  labels ← wrap ("cannot get " +:+ quoted "metadata.labels" +:+ " from paved")
                (fieldpath.GetValue ["metadata"; "labels"] (reference.Paved pm));
  labels ← match labels with VStrMap m => Ok m | _ => Panic end;
  let pm := withExampleName (dns1123Name (default "" (labels !! labelExampleName))) pm in
  paved ← wrap ("cannot set " +:+ quoted "metadata.name" +:+ " for resource "
                +:+ quoted (config.Name (reference.Config pm)) +:+ ":"
                +:+ reference.ExampleName pm)
               (fieldpath.SetValue ["metadata"; "name"]
                  (VStr (reference.ExampleName pm)) (reference.Paved pm));
  u ← stripDependsOn paved;
  let pm := withPaved u pm in
  buff ← wrap "cannot marshal example resource manifest" (yaml_Marshal u);
  writer ← wrap "cannot write resource manifest to the underlying stream"
                (Write buff writer);
  writer ← wrap "cannot write YAML document separator to the underlying stream"
                (Write documentSeparator writer);
  Ok (writer, pm, resolutionContext).

(** The loop over the sorted dependency identifiers. *)
Fixpoint storeDependencies (eg : Generator) (rn : string) (re : registry.ResourceExample)
    (dKeys : list string) (buff : string) (context : reference.ResolutionContext)
  : outcome string :=
  match dKeys with
  | [] => Ok buff
  | dn :: dKeys =>
      match resources eg !! reference.GetResourceName
                               (reference.NewRefPartsFromResourceName dn) true with
      | None => storeDependencies eg rn re dKeys buff context
      | Some dr =>
          exampleParams ←
            wrap ("cannot unmarshal example manifest for resource: "
                  +:+ config.Name (reference.Config dr))
                 (TFParser_Unmarshal (default "" (registry.Dependencies re !! dn)));
          let pmd := paveCRManifest exampleParams (reference.Config dr)
                       (reference.Parts_ExampleName
                          (reference.NewRefPartsFromResourceName dn))
                       (reference.Group dr) (reference.Version dr) in
          '(buff, _, context) ←
            wrap ("cannot store example manifest for " +:+ rn +:+ " dependency: " +:+ dn)
                 (writeManifest bufferWrite buff pmd context);
          storeDependencies eg rn re dKeys buff context
      end
  end.

(** The dependency documents of [rn], appended to the buffer of its
    primary document. *)
Definition storeExampleDependencies (eg : Generator) (rn : string) (buff : string)
  : outcome string :=
  let resource := reference.Parts_Resource (reference.NewRefPartsFromResourceName rn) in
  match configResources eg !! resource with
  | Some r =>
      match config.MetaResource r with
      | Some meta =>
          re ← match registry.Examples meta with re :: _ => Ok re | [] => Panic end;
          context ←
            wrap ("cannot prepare local resolution context for resource: " +:+ rn)
                 (reference.PrepareLocalResolutionContext re
                    (reference.GetResourceName
                       (reference.NewRefParts resource (registry.Name re)) false));
          let dKeys := sortStrings (rangeDependencies (registry.Dependencies re)) in
          storeDependencies eg rn re dKeys buff context
      | None => Ok buff
      end
  | None => Ok buff
  end.

(** One iteration of the loop of [StoreExamples], for the entry [rn],
    [pm]: the outcome, the generator and the file system after it.  After
    a failed [writeManifest] the manifests are given as the call found
    them: what it has mutated before failing is not tracked. *)
Definition storeExample (rn : string) (pm : reference.PavedWithManifest)
    (eg : Generator) (fs : FileSystem) : outcome unit * (Generator * FileSystem) :=
  let manifestDir := filepath_Dir (reference.ManifestPath pm) in
  match os_MkdirAll manifestDir fs with
  | (Some err, fs) => (Error ("cannot mkdir " +:+ manifestDir +:+ ": " +:+ err), (eg, fs))
  | (None, fs) =>
      match wrap ("cannot store example manifest for resource: " +:+ rn)
                 (writeManifest bufferWrite "" pm
                    {| reference.WildcardNames := true;
                       reference.Context := resources eg |}) with
      | Ok (buff, pm, context) =>
          let eg := withResources (<[ rn := pm ]> (reference.Context context)) eg in
          match storeExampleDependencies eg rn buff with
          | Ok buff =>
              match ioutil_WriteFile (reference.ManifestPath pm) buff fs with
              | (Some err, fs) =>
                  (Error ("cannot write example manifest file "
                          +:+ reference.ManifestPath pm +:+ " for resource " +:+ rn
                          +:+ ": " +:+ err), (eg, fs))
              | (None, fs) => (Ok (), (eg, fs))
              end
          | Error msg => (Error msg, (eg, fs))
          | Panic => (Panic, (eg, fs))
          end
      | Error msg => (Error msg, (eg, fs))
      | Panic => (Panic, (eg, fs))
      end
  end.

(** [StoreExamples], for the order [order] in which the loop produces
    the keys of [eg.resources]: the first error is returned from inside
    the loop. *)
Fixpoint StoreExamples (order : list string) (eg : Generator) (fs : FileSystem)
  : outcome unit * (Generator * FileSystem) :=
  match order with
  | [] => (Ok (), (eg, fs))
  | rn :: order =>
      match resources eg !! rn with
      | None => StoreExamples order eg fs
      | Some pm =>
          match storeExample rn pm eg fs with
          | (Ok _, (eg, fs)) => StoreExamples order eg fs
          | failure => failure
          end
      end
  end.

End Store.



(** What [writeManifest] leaves in a document before it is marshalled:
    no [depends_on] under [spec.forProvider], and [metadata.name] derived
    from the example-name label. *)
Definition finalDocument (u : Params) : Prop :=
  (∃ spec forProvider,
      u !! "spec" = Some (VMap spec) ∧
      spec !! "forProvider" = Some (VMap forProvider) ∧
      forProvider !! "depends_on" = None) ∧
  (∃ labels,
      fieldpath.GetValue ["metadata"; "labels"] u = Ok (VStrMap labels) ∧
      fieldpath.GetValue ["metadata"; "name"] u
        = Ok (VStr (dns1123Name (default "" (labels !! labelExampleName))))).

(** The contents of a buffer to which the documents [docs] were written
    in turn: the encoding of each, followed by the separator. *)
Inductive rendering `{Platform} : list Params -> string -> Prop :=
| rendering_empty : rendering [] ""
| rendering_write (docs : list Params) (buff : string) (u : Params) (encoded : string) :
    rendering docs buff →
    yaml_Marshal u = Ok encoded →
    rendering (docs ++ [u]) ((buff +:+ encoded) +:+ documentSeparator).

(** ** A reference implementation of the outside packages

    Used to run the generator on concrete examples. *)
Module SpecModel.

Definition upperAscii (c : ascii) : ascii :=
  let n := nat_of_ascii c in
  if (97 <=? n)%nat && (n <=? 122)%nat then ascii_of_nat (n - 32) else c.

Definition title (s : string) : string :=
  match s with
  | EmptyString => EmptyString
  | String c s' => String (upperAscii c) s'
  end.

Definition lowerFirst (s : string) : string :=
  match s with
  | EmptyString => EmptyString
  | String c s' => String (lowerAscii c) s'
  end.

(** Modelled from the spec: [name.NewFromSnake] is declared in
    pkg/types/name, outside src; section 4.1 calls its result the
    case-converted field name, and section 8 shows [password] kept as
    [password].  The words between underscores are joined, every word
    but the first capitalised. *)
Definition lowerCamel (snake : string) : string :=
  match split underscore snake with
  | [] => EmptyString
  | hd :: tl => hd +:+ join (map title tl) ""
  end.

(** Modelled from the spec: [name.ReferenceFieldName] and
    [name.SelectorFieldName] are declared in pkg/types/name, outside
    src; section 4.1 calls their results derived field names honoring a
    configured override. *)
#[export] Instance names : name.Package := {|
  name.Name := string;
  name.NewFromSnake := lowerCamel;
  name.LowerCamelComputed := fun n => n;
  name.ReferenceFieldName := fun fn plural camelOption =>
    if decide (camelOption = "") then fn +:+ (if plural then "Refs" else "Ref")
    else lowerFirst camelOption;
  name.SelectorFieldName := fun fn camelOption =>
    if decide (camelOption = "") then fn +:+ "Selector"
    else lowerFirst camelOption
|}.

Record RefParts : Type := {
  PResource : string;
  PExampleName : string;
  PAttribute : string
}.

(** Modelled from the spec: [reference.ReRef] is declared in
    pkg/registry/reference, outside src; sections 4.2 and 8 call it the
    interpolation pattern and show it on [${data.vault_secret.ex_db.password}]:
    a dollar sign, a brace, the inner expression and a closing brace. *)
Definition ReRef_FindStringSubmatch (s : string) : list string :=
  findStringSubmatch "${" "}" s.

(** Modelled from the spec: [reference.MatchRefParts] is declared in
    pkg/registry/reference, outside src; section 4.1 has it recognise a
    reference pattern in a text, and section 4.2 gives the components of
    an inner expression as resource type, resource name and attribute
    path, at least three of them. *)
Definition MatchRefParts (ref : string) : option RefParts :=
  match ReRef_FindStringSubmatch ref with
  | [_; g1] =>
      match split dot g1 with
      | p0 :: p1 :: p2 :: rest =>
          Some {| PResource := p0; PExampleName := p1;
                  PAttribute := join (p2 :: rest) "." |}
      | _ => None
      end
  | _ => None
  end.

(** Modelled from the spec: resource identifiers are declared in
    pkg/registry/reference, outside src; section 6 describes them as
    dotted strings, resource name then example name, with a wildcard in
    place of the example name meaning any example of the type. *)
Definition NewRefPartsFromResourceName (rn : string) : RefParts :=
  match split dot rn with
  | p0 :: p1 :: _ => {| PResource := p0; PExampleName := p1; PAttribute := "" |}
  | p0 :: _ => {| PResource := p0; PExampleName := ""; PAttribute := "" |}
  | [] => {| PResource := ""; PExampleName := ""; PAttribute := "" |}
  end.

#[export] Instance refs : reference.Syntax := {|
  reference.ReRef_FindStringSubmatch := ReRef_FindStringSubmatch;
  reference.Parts := RefParts;
  reference.Parts_Resource := PResource;
  reference.Parts_ExampleName := PExampleName;
  reference.MatchRefParts := MatchRefParts;
  reference.NewRefParts := fun resource exampleName =>
    {| PResource := resource; PExampleName := exampleName; PAttribute := "" |};
  reference.NewRefPartsFromResourceName := NewRefPartsFromResourceName;
  reference.GetResourceName := fun parts wildcardName =>
    PResource parts +:+ "." +:+
    (if wildcardName then reference.Wildcard else PExampleName parts)
|}.

(** The iterator that produces the keys found at the start, once each,
    and none of the entries created on the way. *)
Definition snapshot : Schedule := fun _ params => map fst (map_to_list params).

(** A schema given by a finite table of paths. *)
Definition tableSchema (t : gmap string schema.Schema) : string -> option schema.Schema :=
  fun path => t !! path.

(** A resolver that resolves nothing, and a local context without
    entries. *)
#[export] Instance injector : reference.Injector := {|
  reference.ResolveReferencesOfPaved := fun pm ctx => Ok (pm, ctx);
  reference.PrepareLocalResolutionContext := fun _ _ =>
    Ok {| reference.WildcardNames := false; reference.Context := ∅ |}
|}.

(** What precedes the last separator of a path. *)
Fixpoint upToLastSlash (path : string) : string :=
  match path with
  | EmptyString => EmptyString
  | String c path' =>
      if existsb (Ascii.eqb slash) (list_ascii_of_string path')
      then String c (upToLastSlash path') else EmptyString
  end.

(** [filepath.Dir] on clean relative paths: the directory part, [.] when
    there is none. *)
Definition dirName (path : string) : string :=
  if decide (upToLastSlash path = "") then "." else upToLastSlash path.

(** Files by path.  Creating a directory fails for the paths in
    [denied]; the encoder prints a document with [%v]; the parser reads
    a non-empty blob as the tree with that blob as its one field. *)
Definition platform (denied : list string) : Platform := {|
  filepath_Dir := dirName;
  FileSystem := gmap string string;
  os_MkdirAll := fun dir fs =>
    if bool_decide (dir ∈ denied) then (Some "permission denied", fs) else (None, fs);
  ioutil_WriteFile := fun path data fs => (None, <[ path := data ]> fs);
  yaml_Marshal := fun u => Ok (fmtV (VMap u));
  TFParser_Unmarshal := fun blob =>
    if decide (blob = "") then Error "unexpected end of input"
    else Ok {[ "blob" := VStr blob ]}
|}.

Definition field (observed sensitive : bool) (t : schema.ValueType) : schema.Schema :=
  {| schema.Observed := observed; schema.Sensitive := sensitive; schema.Type_ := t |}.

Definition resource (resourceName kind : string) (omitted : list string)
    (references : gmap string config.Reference)
    (fields : gmap string schema.Schema)
    (meta : option registry.Resource) : config.Resource :=
  {| config.Name := resourceName;
     config.Kind := kind;
     config.OmittedFields := omitted;
     config.References := references;
     config.TerraformResource := tableSchema fields;
     config.MetaResource := meta |}.

End SpecModel.

(** * Properties *)

(** ** Go strings *)

Lemma split_length_pos (sep : ascii) (s : string) : 1 ≤ length (split sep s).
Proof.
  induction s as [|c s IH]; simpl; [lia|].
  destruct (Ascii.eqb c sep); simpl; [lia|].
  destruct (split sep s); simpl in *; lia.
Qed.

Lemma sliceFrom_in_range {A} (n : nat) (l : list A) :
  n ≤ length l → sliceFrom n l = Some (drop n l).
Proof.
  intros Hn. unfold sliceFrom.
  destruct (n <=? length l)%nat eqn:E; [done|].
  apply Nat.leb_gt in E. lia.
Qed.

Lemma mapStr_length (f : ascii -> ascii) (s : string) :
  String.length (mapStr f s) = String.length s.
Proof. induction s; simpl; congruence. Qed.

(** ** The secret-reference extractor *)

Section SecretRef.
Context `{reference.Syntax}.

(** The shapes on which the extractor falls back to its defaults: a
    value that is not a string, a string without a match of the
    interpolation pattern, and an inner expression that is not a file
    reference and has fewer than three dot-separated components. *)
Inductive fallsBack : value -> Prop :=
| fallsBack_notString (v : value) :
    (∀ s, v ≠ VStr s) → fallsBack v
| fallsBack_noMatch (s : string) :
    length (reference.ReRef_FindStringSubmatch s) ≠ 2 → fallsBack (VStr s)
| fallsBack_short (s whole inner : string) :
    reference.ReRef_FindStringSubmatch s = [whole; inner] →
    length (reFile_FindStringSubmatch inner) ≠ 2 →
    length (split dot inner) < 3 →
    fallsBack (VStr s).

Lemma getSecretRef_total (v : value) : is_Some (getSecretRef v).
Proof.
  unfold getSecretRef. destruct v; try by eexists.
  destruct (decide (length (reference.ReRef_FindStringSubmatch s) ≠ 2)) as [|Hg];
    [by eexists|].
  apply dec_stable in Hg.
  destruct (reference.ReRef_FindStringSubmatch s) as [|whole [|g1 [|]]]; try done.
  simpl.
  destruct (decide (length (reFile_FindStringSubmatch g1) = 2)) as [Hf|Hf].
  - by destruct (reFile_FindStringSubmatch g1) as [|? [|f1 [|]]].
  - destruct (decide (length (split dot g1) < 3)) as [|Hparts]; [by eexists|].
    destruct (split dot g1) as [|p0 parts] eqn:Esplit; [simpl in Hparts; lia|].
    simpl.
    rewrite (sliceFrom_in_range 1 (split underscore p0)) by apply split_length_pos.
    rewrite (sliceFrom_in_range 2 (p0 :: parts)) by lia.
    by eexists.
Qed.

Lemma getSecretRef_fallsBack (v : value) :
  fallsBack v → getSecretRef v = Some ("example-secret", "example-key").
Proof.
  intros [v' Hv | s Hs | s whole inner Hre Hfile Hshort]; unfold getSecretRef.
  - destruct v'; try done. by destruct (Hv s).
  - by rewrite decide_True.
  - rewrite Hre. rewrite decide_False by (simpl; lia). simpl.
    rewrite decide_False by done.
    by rewrite decide_True.
Qed.

(** C7, as amended.  The extractor returns a pair for every value, and
    the fixed defaults whenever the value is not a string, the string
    has no match of the interpolation pattern, or the inner expression
    is not a file reference and has fewer than three dot-separated
    components; so it does on its own default name, which has no
    match. *)
Theorem extractor_is_total_and_falls_back (v : value) :
  is_Some (getSecretRef v) ∧
  (fallsBack v → getSecretRef v = Some ("example-secret", "example-key")) ∧
  (length (reference.ReRef_FindStringSubmatch "example-secret") ≠ 2 →
   getSecretRef (VStr "example-secret") = Some ("example-secret", "example-key")).
Proof.
  split_and!.
  - apply getSecretRef_total.
  - apply getSecretRef_fallsBack.
  - intros Hno. by apply getSecretRef_fallsBack, fallsBack_noMatch.
Qed.

End SecretRef.

(** ** The rewrite loop *)

Section RewriteLoop.
Context `{name.Package} `{reference.Syntax}.
Variable r : config.Resource.
Variable omittedFields : list string.
Variable sched : Schedule.

Lemma rewriteField_rewritten (namePrefix n : string) (v : value) (params : Params) :
  rewriteField r namePrefix n v params =
  match rewritten r namePrefix n v with
  | Some (k, w) => <[ k := w ]> (delete n params)
  | None => params
  end.
Proof.
  unfold rewriteField, rewritten.
  destruct (config.GetSchema _ _) as [sch|]; simpl; [|done].
  destruct (schema.Sensitive sch).
  { by destruct (default _ (getSecretRef v)). }
  destruct (decide _); [|done].
  by destruct v.
Qed.

Lemma rewritten_schema (namePrefix n : string) (v : value) :
  config.GetSchema (config.TerraformResource r) (getHierarchicalName namePrefix n) = None →
  rewritten r namePrefix n v = None.
Proof. unfold rewritten. by intros ->. Qed.

Lemma rewritten_is_Some (namePrefix n : string) (v : value) (kw : string * value) :
  rewritten r namePrefix n v = Some kw →
  is_Some (config.GetSchema (config.TerraformResource r)
             (getHierarchicalName namePrefix n)).
Proof.
  unfold rewritten. destruct (config.GetSchema _ _); [by eexists|done].
Qed.

Lemma rangeRewrite_cons (namePrefix n : string) (order : list string) (params : Params) :
  rangeRewrite r namePrefix (n :: order) params =
  rangeRewrite r namePrefix order
    (match params !! n with
     | Some v => rewriteField r namePrefix n v params
     | None => params
     end).
Proof. done. Qed.

(** One iteration leaves alone every key other than the one it visits
    and the one it writes. *)
Lemma step_lookup_other (namePrefix n k : string) (v : value) (params : Params) :
  k ≠ n →
  (∀ w, rewritten r namePrefix n v ≠ Some (k, w)) →
  rewriteField r namePrefix n v params !! k = params !! k.
Proof.
  intros Hkn Hk. rewrite rewriteField_rewritten.
  destruct (rewritten r namePrefix n v) as [[k' w]|] eqn:E; [|done].
  rewrite lookup_insert_ne; [by rewrite lookup_delete_ne|].
  intros ->. by apply (Hk w).
Qed.

(** A key outside the schema that no field is rewritten to keeps its
    entry through the loop, whatever the iterator produces. *)
Lemma rangeRewrite_frame (namePrefix k : string) (order : list string) (params : Params) :
  config.GetSchema (config.TerraformResource r) (getHierarchicalName namePrefix k) = None →
  (∀ n v w, rewritten r namePrefix n v ≠ Some (k, w)) →
  rangeRewrite r namePrefix order params !! k = params !! k.
Proof.
  intros Hk Hfree. revert params.
  induction order as [|n order IH]; intros params; [done|].
  rewrite rangeRewrite_cons, IH.
  destruct (params !! n) as [v|] eqn:En; [|done].
  destruct (decide (k = n)) as [->|Hkn].
  - by rewrite rewriteField_rewritten, rewritten_schema.
  - apply step_lookup_other; [done|]. intros w. apply Hfree.
Qed.

(** A key outside the schema is never deleted. *)
Lemma rangeRewrite_keeps (namePrefix k : string) (order : list string) (params : Params) :
  config.GetSchema (config.TerraformResource r) (getHierarchicalName namePrefix k) = None →
  is_Some (params !! k) →
  is_Some (rangeRewrite r namePrefix order params !! k).
Proof.
  intros Hk. revert params.
  induction order as [|n order IH]; intros params Hin; [done|].
  rewrite rangeRewrite_cons. apply IH.
  destruct (params !! n) as [v|] eqn:En; [|done].
  rewrite rewriteField_rewritten.
  destruct (rewritten r namePrefix n v) as [[k' w]|] eqn:E; [|done].
  destruct (decide (k' = k)) as [->|Hk'].
  { rewrite lookup_insert_eq. by eexists. }
  rewrite lookup_insert_ne by done.
  rewrite lookup_delete_ne; [done|].
  intros ->. apply rewritten_is_Some in E. rewrite Hk in E. by destruct E.
Qed.

(** Every key of the result was there at the start or was written by
    the loop. *)
Lemma rangeRewrite_keys (namePrefix k : string) (order : list string) (params : Params) :
  is_Some (rangeRewrite r namePrefix order params !! k) →
  is_Some (params !! k) ∨ ∃ n v w, rewritten r namePrefix n v = Some (k, w).
Proof.
  revert params.
  induction order as [|n order IH]; intros params Hin; [by left|].
  rewrite rangeRewrite_cons in Hin. apply IH in Hin as [Hin|Hin]; [|by right].
  destruct (params !! n) as [v|] eqn:En; [|by left].
  rewrite rewriteField_rewritten in Hin.
  destruct (rewritten r namePrefix n v) as [[k' w]|] eqn:E; [|by left].
  destruct (decide (k' = k)) as [->|Hk'].
  { right. by exists n, v, w. }
  rewrite lookup_insert_ne in Hin by done.
  left. destruct (decide (n = k)) as [->|Hn].
  - rewrite lookup_delete_eq in Hin. by destruct Hin.
  - by rewrite lookup_delete_ne in Hin.
Qed.

(** The field [n] is rewritten to the entry [k], [w] and stays so: once
    [n] is visited it is gone for good and [k] holds [w], provided [k]
    is outside the schema and no other field is rewritten to [n] or to
    [k]. *)
Section Settled.
Variables (namePrefix n k : string) (v w : value).
Hypothesis Hnkw : rewritten r namePrefix n v = Some (k, w).
Hypothesis Hk : config.GetSchema (config.TerraformResource r)
                  (getHierarchicalName namePrefix k) = None.
Hypothesis Hothers : ∀ n' v' w', n' ≠ n →
  rewritten r namePrefix n' v' ≠ Some (n, w') ∧
  rewritten r namePrefix n' v' ≠ Some (k, w').

Lemma settled_ne : k ≠ n.
Proof.
  intros ->. apply rewritten_is_Some in Hnkw. rewrite Hk in Hnkw. by destruct Hnkw.
Qed.

Lemma rangeRewrite_done (order : list string) (params : Params) :
  params !! n = None → params !! k = Some w →
  rangeRewrite r namePrefix order params !! n = None ∧
  rangeRewrite r namePrefix order params !! k = Some w.
Proof.
  revert params.
  induction order as [|n' order IH]; intros params Hn Hkw; [done|].
  rewrite rangeRewrite_cons.
  destruct (params !! n') as [v'|] eqn:En'; [|by apply IH].
  destruct (decide (n' = n)) as [->|Hn']; [congruence|].
  destruct (decide (n' = k)) as [->|Hn'k].
  { rewrite rewriteField_rewritten, rewritten_schema by done. by apply IH. }
  apply IH.
  - rewrite step_lookup_other; [done..|].
    intros w'. by apply Hothers.
  - rewrite step_lookup_other; [done..|].
    intros w'. by apply Hothers.
Qed.

Lemma rangeRewrite_pending (order : list string) (params : Params) :
  params !! n = Some v → n ∈ order →
  rangeRewrite r namePrefix order params !! n = None ∧
  rangeRewrite r namePrefix order params !! k = Some w.
Proof.
  revert params.
  induction order as [|n' order IH]; intros params Hn Hin.
  { by apply not_elem_of_nil in Hin. }
  rewrite rangeRewrite_cons.
  destruct (decide (n' = n)) as [->|Hn'].
  - rewrite Hn, rewriteField_rewritten, Hnkw.
    apply rangeRewrite_done.
    + rewrite lookup_insert_ne by apply settled_ne. apply lookup_delete_eq.
    + apply lookup_insert_eq.
  - apply elem_of_cons in Hin as [?|Hin]; [congruence|].
    destruct (params !! n') as [v'|] eqn:En'; [|by apply IH].
    apply IH; [|done].
    destruct (decide (n' = k)) as [->|Hn'k].
    { by rewrite rewriteField_rewritten, rewritten_schema. }
    rewrite step_lookup_other; [done..|].
    intros w'. by apply Hothers.
Qed.
End Settled.

End RewriteLoop.

(** ** transformFields *)

Section TransformFields.
Context `{name.Package} `{reference.Syntax}.
Variable r : config.Resource.
Variable omittedFields : list string.
Variable sched : Schedule.

(** The map that the rewrite loop of a call starts from: the first loop
    has deleted the elided keys, the second has recursed into the
    values of the others. *)
Definition beforeRewrite (params : Params) (namePrefix : string) : Params :=
  map_imap (fun n v =>
              Some (recurse r omittedFields sched v (getHierarchicalName namePrefix n)))
           (elisionPass r omittedFields namePrefix params).

Lemma lookup_beforeRewrite (params : Params) (namePrefix n : string) :
  beforeRewrite params namePrefix !! n =
  if elided r omittedFields namePrefix n then None
  else (fun v => recurse r omittedFields sched v (getHierarchicalName namePrefix n))
         <$> params !! n.
Proof.
  unfold beforeRewrite, elisionPass.
  rewrite map_lookup_imap, map_lookup_filter.
  destruct (params !! n) as [v|]; simpl; [|by destruct (elided _ _ _ _)].
  destruct (elided r omittedFields namePrefix n) eqn:E.
  - by rewrite option_guard_False by (simpl; congruence).
  - by rewrite option_guard_True.
Qed.

(** The three loops of the source, in its order. *)
Lemma transformFields_unfold (params : Params) (namePrefix : string) :
  transformFields r omittedFields sched params namePrefix =
  rewritePass r sched namePrefix (beforeRewrite params namePrefix).
Proof.
  unfold transformFields, levelPasses. f_equal.
  apply map_eq. intros n.
  rewrite lookup_beforeRewrite.
  unfold elisionPass. rewrite map_lookup_imap, map_lookup_filter, lookup_fmap.
  destruct (params !! n) as [v|]; simpl; [|by destruct (elided _ _ _ _)].
  destruct (elided r omittedFields namePrefix n) eqn:E.
  - by rewrite option_guard_False by (simpl; congruence).
  - by rewrite option_guard_True.
Qed.

Lemma recurse_VMap (pT : Params) (hName : string) :
  recurse r omittedFields sched (VMap pT) hName =
  VMap (transformFields r omittedFields sched pT hName).
Proof. done. Qed.

Lemma recurse_VList (pT : list value) (hName : string) :
  recurse r omittedFields sched (VList pT) hName =
  VList (map (fun e => match e with
                       | VMap eM => VMap (transformFields r omittedFields sched eM hName)
                       | _ => e
                       end) pT).
Proof. done. Qed.

Lemma recurse_no_tree (v : value) (hName : string) :
  holdsTree v = false → recurse r omittedFields sched v hName = v.
Proof.
  destruct v as [| | | |l| | |]; try done.
  intros Hl. rewrite recurse_VList. f_equal.
  induction l as [|e l IH]; [done|].
  simpl in Hl. apply orb_false_iff in Hl as [He Hl].
  simpl. rewrite IH by done. by destruct e.
Qed.

Lemma elided_false (namePrefix n : string) :
  elided r omittedFields namePrefix n = false ↔
  isStatus r (getHierarchicalName namePrefix n) = false ∧
  getHierarchicalName namePrefix n ∉ omittedFields.
Proof.
  unfold elided. rewrite orb_false_iff, bool_decide_eq_false. tauto.
Qed.

End TransformFields.

(** ** The extractor on a matching string *)

Section SecretRefShapes.
Context `{reference.Syntax}.

Lemma getSecretRef_file (s whole inner fwhole file : string) :
  reference.ReRef_FindStringSubmatch s = [whole; inner] →
  reFile_FindStringSubmatch inner = [fwhole; file] →
  getSecretRef (VStr s) = Some ("example-secret", "attribute." +:+ baseName file).
Proof.
  intros Hre Hfile. unfold getSecretRef.
  rewrite Hre. rewrite decide_False by (simpl; lia). simpl.
  rewrite Hfile. by rewrite decide_True.
Qed.

Lemma getSecretRef_dotted (s whole inner p0 p1 p2 : string) (rest : list string) :
  reference.ReRef_FindStringSubmatch s = [whole; inner] →
  length (reFile_FindStringSubmatch inner) ≠ 2 →
  split dot inner = p0 :: p1 :: p2 :: rest →
  getSecretRef (VStr s) =
  Some ("example-" +:+ join (drop 1 (split underscore p0)) "-",
        "attribute." +:+ join (p2 :: rest) ".").
Proof.
  intros Hre Hfile Hparts. unfold getSecretRef.
  rewrite Hre. rewrite decide_False by (simpl; lia). simpl.
  rewrite decide_False by done.
  rewrite Hparts. rewrite decide_False by (simpl; lia). simpl.
  by rewrite (sliceFrom_in_range 1 (split underscore p0)) by apply split_length_pos.
Qed.

End SecretRefShapes.

(** ** Claims on the field transformer *)

Section TransformClaims.
Context `{name.Package} `{reference.Syntax}.
Variable r : config.Resource.
Variable omittedFields : list string.
Variable sched : Schedule.

Lemma not_elided (namePrefix n : string) :
  isStatus r (getHierarchicalName namePrefix n) = false →
  getHierarchicalName namePrefix n ∉ omittedFields →
  elided r omittedFields namePrefix n = false.
Proof. intros. by apply elided_false. Qed.

Lemma isStatus_outside_schema (attr : string) :
  config.GetSchema (config.TerraformResource r) attr = None → isStatus r attr = false.
Proof. unfold isStatus. by intros ->. Qed.

(** C5, as amended.  A field whose hierarchical path is outside the
    schema and is not an omitted field is still there, under its own
    name, after [transformFields].  Unless some field of the level is
    rewritten to that very name, its value is the original one with the
    trees it holds transformed in turn, which is the original value
    itself when it holds no tree. *)
Theorem passthrough_outside_schema
    (params : Params) (namePrefix n : string) (v : value) :
  params !! n = Some v →
  getHierarchicalName namePrefix n ∉ omittedFields →
  config.GetSchema (config.TerraformResource r)
    (getHierarchicalName namePrefix n) = None →
  let out := transformFields r omittedFields sched params namePrefix in
  let v' := recurse r omittedFields sched v (getHierarchicalName namePrefix n) in
  is_Some (out !! n) ∧
  ((∀ n' u w, rewritten r namePrefix n' u ≠ Some (n, w)) → out !! n = Some v') ∧
  (holdsTree v = false → v' = v).
Proof.
  intros Hn Homit Hsch out v'.
  assert (beforeRewrite r omittedFields sched params namePrefix !! n = Some v') as Hbefore.
  { rewrite lookup_beforeRewrite, not_elided, Hn;
      [done|by apply isStatus_outside_schema|done]. }
  subst out. rewrite transformFields_unfold. unfold rewritePass.
  split_and!.
  - apply rangeRewrite_keeps; [done|]. rewrite Hbefore. by eexists.
  - intros Hfree. by rewrite rangeRewrite_frame.
  - apply recurse_no_tree.
Qed.


(** C1, as amended.  A field of the schema that is not sensitive and
    has a declared reference is rewritten by the value it holds: to a
    reference array when the value is an ordered sequence, one
    single-key [{name: ...}] object per element, the schema cardinality
    choosing only the derived name; to a selector in every other case,
    a list or set cardinality included, matching on the example-name
    label with the default [example] unless the text of the value
    matches a reference.  The entry is found in the result when the
    derived name is outside the schema and no other field of the level
    is rewritten to the field or to the derived name. *)
Theorem reference_field_rewrite
    (params : Params) (namePrefix n : string) (v : value) (sch : schema.Schema) :
  let fieldPath := getHierarchicalName namePrefix n in
  let fn := name.NewFromSnake n in
  let ref := config.referenceOf r fieldPath in
  let refKey :=
    name.LowerCamelComputed
      (name.ReferenceFieldName fn
         (bool_decide (schema.Type_ sch = schema.TypeList)
          || bool_decide (schema.Type_ sch = schema.TypeSet))
         (config.RefFieldName ref)) in
  let selKey :=
    name.LowerCamelComputed
      (name.SelectorFieldName fn (config.SelectorFieldName ref)) in
  let k := match v with VList _ => refKey | _ => selKey end in
  let out := transformFields r omittedFields sched params namePrefix in
  covers sched →
  params !! n = Some v →
  fieldPath ∉ omittedFields →
  config.GetSchema (config.TerraformResource r) fieldPath = Some sch →
  tjtypes.IsObservation sch = false →
  schema.Sensitive sch = false →
  ref ≠ config.zeroReference →
  config.GetSchema (config.TerraformResource r) (getHierarchicalName namePrefix k) = None →
  (∀ n' u w, n' ≠ n →
     rewritten r namePrefix n' u ≠ Some (n, w) ∧
     rewritten r namePrefix n' u ≠ Some (k, w)) →
  out !! n = None ∧
  match v with
  | VList arr =>
      ∃ refs, out !! refKey = Some (VMapList refs) ∧
              length refs = length arr ∧
              Forall (fun m => ∃ s, m = {[ "name" := VStr s ]}) refs
  | _ =>
      ∃ label,
        out !! selKey =
          Some (VMap {[ "matchLabels" := VStrMap {[ labelExampleName := label ]} ]}) ∧
        label = match reference.MatchRefParts
                        (fmtV (recurse r omittedFields sched v fieldPath)) with
                | Some parts => reference.Parts_ExampleName parts
                | None => defaultExampleName
                end
  end.
Proof.
  intros fieldPath fn ref refKey selKey k out
         Hcov Hn Homit Hsch Hobs Hsens Href Hk Hothers.
  set (v' := recurse r omittedFields sched v fieldPath).
  assert (beforeRewrite r omittedFields sched params namePrefix !! n = Some v') as Hbefore.
  { rewrite lookup_beforeRewrite, not_elided, Hn; [done| |done].
    unfold isStatus. fold fieldPath. by rewrite Hsch. }
  assert (∃ w, rewritten r namePrefix n v' = Some (k, w) ∧
               match v with
               | VList arr =>
                   ∃ refs, w = VMapList refs ∧ length refs = length arr ∧
                           Forall (fun m => ∃ s, m = {[ "name" := VStr s ]}) refs
               | _ =>
                   w = VMap {[ "matchLabels" := VStrMap {[ labelExampleName :=
                         match reference.MatchRefParts (fmtV v') with
                         | Some parts => reference.Parts_ExampleName parts
                         | None => defaultExampleName
                         end ]} ]}
               end) as (w & Hw & Hshape).
  { unfold rewritten. fold fieldPath. rewrite Hsch. simpl. rewrite Hsens.
    rewrite decide_True by done. fold fn ref.
    assert (∀ u, getSelectorField u =
                 VMap {[ "matchLabels" := VStrMap {[ labelExampleName :=
                   match reference.MatchRefParts (fmtV u) with
                   | Some parts => reference.Parts_ExampleName parts
                   | None => defaultExampleName
                   end ]} ]}) as Hsel.
    { intros u. unfold getSelectorField.
      destruct (reference.MatchRefParts (fmtV u)); [|done].
      by rewrite insert_singleton_eq. }
    subst v'. destruct v as [| | | |arr|pT| |]; try (eexists; split; [done|apply Hsel]).
    rewrite recurse_VList. eexists. split; [done|].
    eexists. split; [done|]. rewrite !length_map. split; [done|].
    apply Forall_forall. intros m [e [-> _]]%list_elem_of_fmap.
    destruct (reference.MatchRefParts (fmtV e)); by eexists. }
  subst out. rewrite transformFields_unfold. unfold rewritePass.
  destruct (rangeRewrite_pending r namePrefix n k v' w Hw Hk Hothers
              (sched namePrefix (beforeRewrite r omittedFields sched params namePrefix))
              (beforeRewrite r omittedFields sched params namePrefix) Hbefore)
    as [Hgone Hthere].
  { apply Hcov. rewrite Hbefore. by eexists. }
  split; [done|].
  subst k. destruct v as [| | | |arr|pT| |];
    try (eexists; split; [by rewrite Hthere, Hshape|done]).
  destruct Hshape as (refs & -> & Hlen & Hall). by exists refs.
Qed.

End TransformClaims.

(** ** The sensitive field of the end-to-end scenario *)

Definition passwordExpr : string := "${data.vault_secret.ex_db.password}".

Definition passwordTree : Params := {[ "password" := VStr passwordExpr ]}.

Lemma getHierarchicalName_root (n : string) : getHierarchicalName "" n = n.
Proof. unfold getHierarchicalName. by rewrite decide_True. Qed.

Section PasswordScenario.
Context `{name.Package} `{reference.Syntax}.
Variable r : config.Resource.
Variable omittedFields : list string.
Variable sched : Schedule.

(** C2, as amended.  On the tree whose single field is the sensitive
    schema field [password], holding
    ["${data.vault_secret.ex_db.password}"], [transformFields] removes
    [password] and inserts [passwordSecretRef] with the value
    [{name: "example-", namespace: "upbound-system",
      key: "attribute.ex_db.password"}]: the name comes from the first
    component of the expression, [data], less its leading word, and the
    key from the third component on. *)
Theorem password_secret_ref (sch : schema.Schema) :
  covers sched →
  name.LowerCamelComputed (name.NewFromSnake "password") = "password" →
  reference.ReRef_FindStringSubmatch passwordExpr
    = [passwordExpr; "data.vault_secret.ex_db.password"] →
  config.TerraformResource r "password" = Some sch →
  (∀ path, path ≠ "password" → config.TerraformResource r path = None) →
  schema.Sensitive sch = true →
  tjtypes.IsObservation sch = false →
  "password" ∉ omittedFields →
  transformFields r omittedFields sched passwordTree "" =
  {[ "passwordSecretRef" :=
       VMap (<[ "name" := VStr "example-" ]>
             (<[ "namespace" := VStr "upbound-system" ]>
              {[ "key" := VStr "attribute.ex_db.password" ]})) ]}.
Proof.
  intros Hcov Hname Hre Hsch Hsingle Hsens Hobs Homit.
  set (w := VMap (<[ "name" := VStr "example-" ]>
                  (<[ "namespace" := VStr "upbound-system" ]>
                   {[ "key" := VStr "attribute.ex_db.password" ]}))).
  assert (beforeRewrite r omittedFields sched passwordTree "" = passwordTree) as Hbefore.
  { apply map_eq. intros n. rewrite lookup_beforeRewrite.
    unfold passwordTree.
    destruct (decide (n = "password")) as [->|Hn].
    - rewrite lookup_singleton_eq, not_elided; [done| |by rewrite getHierarchicalName_root].
      unfold isStatus, config.GetSchema.
      by rewrite getHierarchicalName_root, Hsch.
    - rewrite lookup_singleton_ne by done. by destruct (elided _ _ _ _). }
  assert (rewritten r "" "password" (VStr passwordExpr) = Some ("passwordSecretRef", w))
    as Hw.
  { unfold rewritten, config.GetSchema.
    rewrite getHierarchicalName_root, Hsch.
    cbn [mbind option_bind]. rewrite Hsens, Hname.
    rewrite (getSecretRef_dotted passwordExpr passwordExpr
               "data.vault_secret.ex_db.password" "data" "vault_secret" "ex_db"
               ["password"]); [done|done|by vm_compute|done]. }
  assert (∀ n u kw, n ≠ "password" → rewritten r "" n u ≠ Some kw) as Hnone.
  { intros n u kw Hn. rewrite rewritten_schema; [done|].
    unfold config.GetSchema. rewrite getHierarchicalName_root. by apply Hsingle. }
  rewrite transformFields_unfold. unfold rewritePass. rewrite Hbefore.
  destruct (rangeRewrite_pending r "" "password" "passwordSecretRef"
              (VStr passwordExpr) w Hw) with
    (order := sched "" passwordTree) (params := passwordTree) as [Hgone Hthere].
  { unfold config.GetSchema. rewrite getHierarchicalName_root. by apply Hsingle. }
  { intros n' u w' Hn'. split; by apply Hnone. }
  { done. }
  { apply Hcov. unfold passwordTree. rewrite lookup_singleton_eq. by eexists. }
  apply map_eq. intros j.
  destruct (decide (j = "passwordSecretRef")) as [->|Hj].
  { by rewrite Hthere, lookup_singleton_eq. }
  rewrite lookup_singleton_ne by done.
  destruct (decide (j = "password")) as [->|Hjp]; [done|].
  apply eq_None_not_Some.
  intros [Hin|(n & u & w' & Hin)]%rangeRewrite_keys.
  - unfold passwordTree in Hin. rewrite lookup_singleton_ne in Hin by done.
    by destruct Hin.
  - destruct (decide (n = "password")) as [->|Hn]; [|by apply Hnone in Hin].
    unfold rewritten, config.GetSchema in Hin.
    rewrite getHierarchicalName_root, Hsch in Hin. cbn [mbind option_bind] in Hin.
    rewrite Hsens, Hname in Hin.
    destruct (default _ (getSecretRef u)).
    injection Hin as Hkey _. by apply Hj.
Qed.

End PasswordScenario.

(** ** Outcomes *)

Lemma bind_Ok {A B} (m : outcome A) (k : A -> outcome B) (b : B) :
  m ≫= k = Ok b → ∃ a, m = Ok a ∧ k a = Ok b.
Proof. destruct m as [a| |]; [|done..]. intros Hk. by exists a. Qed.


Lemma wrap_Ok {A} (msg : string) (m : outcome A) (a : A) :
  wrap msg m = Ok a → m = Ok a.
Proof. by destruct m. Qed.


(** ** dns1123Name *)

Lemma dns1123Name_length (name : string) :
  String.length (dns1123Name name) = String.length name.
Proof. unfold dns1123Name, replaceAll, toLower. by rewrite !mapStr_length. Qed.

Lemma dns1123Name_cons (c : ascii) (name : string) :
  dns1123Name (String c name) =
  String (if Ascii.eqb (lowerAscii c) underscore then hyphen else lowerAscii c)
         (dns1123Name name).
Proof. done. Qed.

(** The name has no underscore and no upper-case ASCII letter. *)
Lemma dns1123Name_chars (name : string) (c : ascii) :
  c ∈ list_ascii_of_string (dns1123Name name) →
  c ≠ underscore ∧ ¬ (65 ≤ nat_of_ascii c ≤ 90).
Proof.
  induction name as [|a name IH]; [by intros ?%not_elem_of_nil|].
  rewrite dns1123Name_cons. simpl.
  intros [->|Hin]%elem_of_cons; [|by apply IH].
  clear IH. revert a.
  assert (∀ n, n < 256 →
    let a := ascii_of_nat n in
    let c := if Ascii.eqb (lowerAscii a) underscore then hyphen else lowerAscii a in
    c ≠ underscore ∧ ¬ (65 ≤ nat_of_ascii c ≤ 90)) as Hall.
  { intros n Hn.
    do 256 (destruct n as [|n]; [vm_compute; split; [discriminate|lia]|]). lia. }
  intros a. rewrite <- (ascii_nat_embedding a). apply Hall, nat_ascii_bounded.
Qed.

(** ** Documents *)

Lemma GetValue_two (f1 f2 : string) (object : Params) (v : value) :
  fieldpath.GetValue [f1; f2] object = Ok v ↔
  ∃ m, object !! f1 = Some (VMap m) ∧ m !! f2 = Some v.
Proof.
  simpl. split.
  - destruct (object !! f1) as [[| | | | |m| |]|]; try done.
    destruct (m !! f2) as [u|] eqn:E; [|done].
    intros [= ->]. by exists m.
  - intros (m & -> & ->). done.
Qed.

Lemma SetValue_two (f1 f2 : string) (v : value) (object object' : Params) (m : Params) :
  object !! f1 = Some (VMap m) →
  fieldpath.SetValue [f1; f2] v object = Ok object' →
  object' = <[ f1 := VMap (<[ f2 := v ]> m) ]> object.
Proof. simpl. intros ->. simpl. by intros [= <-]. Qed.

Lemma stripDependsOn_Ok (u u' : Params) :
  stripDependsOn u = Ok u' →
  ∃ spec forProvider,
    u !! "spec" = Some (VMap spec) ∧
    spec !! "forProvider" = Some (VMap forProvider) ∧
    u' = <[ "spec" := VMap (<[ "forProvider" :=
                                  VMap (delete "depends_on" forProvider) ]> spec) ]> u.
Proof.
  unfold stripDependsOn.
  destruct (u !! "spec") as [[| | | | |spec| |]|] eqn:Hspec; try done.
  destruct (spec !! "forProvider") as [[| | | | |forProvider| |]|] eqn:Hfor; try done.
  intros [= <-]. by exists spec, forProvider.
Qed.

Section WriteManifest.
Context `{reference.Injector} `{Platform}.
Context {W : Type} (Write : string -> W -> outcome W).

(** What a successful call has gone through. *)
Lemma writeManifest_Ok (writer writer' : W)
    (pm pm' : reference.PavedWithManifest) (ctx ctx' : reference.ResolutionContext) :
  writeManifest Write writer pm ctx = Ok (writer', pm', ctx') →
  ∃ (pm0 : reference.PavedWithManifest) (labels : gmap string string)
    (paved u : Params) (buff : string) (writer1 : W),
    reference.ResolveReferencesOfPaved pm ctx = Ok (pm0, ctx') ∧
    fieldpath.GetValue ["metadata"; "labels"] (reference.Paved pm0)
      = Ok (VStrMap labels) ∧
    fieldpath.SetValue ["metadata"; "name"]
      (VStr (dns1123Name (default "" (labels !! labelExampleName))))
      (reference.Paved pm0) = Ok paved ∧
    stripDependsOn paved = Ok u ∧
    yaml_Marshal u = Ok buff ∧
    Write buff writer = Ok writer1 ∧
    Write documentSeparator writer1 = Ok writer' ∧
    pm' = withPaved u
            (withExampleName (dns1123Name (default "" (labels !! labelExampleName))) pm0).
Proof.
  unfold writeManifest.
  intros ([pm0 ctx0] & Hres%wrap_Ok & Hrest)%bind_Ok.
  apply bind_Ok in Hrest as (labels0 & Hlabels%wrap_Ok & Hrest).
  apply bind_Ok in Hrest as (labels & Hmap & Hrest).
  destruct labels0; try done. injection Hmap as ->.
  apply bind_Ok in Hrest as (paved & Hset%wrap_Ok & Hrest).
  apply bind_Ok in Hrest as (u & Hstrip & Hrest).
  apply bind_Ok in Hrest as (buff & Hbuff%wrap_Ok & Hrest).
  apply bind_Ok in Hrest as (writer1 & Hwrite1%wrap_Ok & Hrest).
  apply bind_Ok in Hrest as (writer2 & Hwrite2%wrap_Ok & Hrest).
  injection Hrest as <- <- <-.
  by exists pm0, labels, paved, u, buff, writer1.
Qed.

Lemma writeManifest_document (writer writer' : W)
    (pm pm' : reference.PavedWithManifest) (ctx ctx' : reference.ResolutionContext) :
  writeManifest Write writer pm ctx = Ok (writer', pm', ctx') →
  ∃ (labels : gmap string string) (encoded : string) (writer1 : W),
    yaml_Marshal (reference.Paved pm') = Ok encoded ∧
    Write encoded writer = Ok writer1 ∧
    Write documentSeparator writer1 = Ok writer' ∧
    (∃ spec forProvider,
        reference.Paved pm' !! "spec" = Some (VMap spec) ∧
        spec !! "forProvider" = Some (VMap forProvider) ∧
        forProvider !! "depends_on" = None) ∧
    fieldpath.GetValue ["metadata"; "labels"] (reference.Paved pm') = Ok (VStrMap labels) ∧
    fieldpath.GetValue ["metadata"; "name"] (reference.Paved pm')
      = Ok (VStr (dns1123Name (default "" (labels !! labelExampleName)))) ∧
    reference.ExampleName pm' = dns1123Name (default "" (labels !! labelExampleName)).
Proof.
  intros (pm0 & labels & paved & u & encoded & writer1
          & _ & Hlabels & Hset & Hstrip & Hencoded & Hwrite1 & Hwrite2 & ->)
         %writeManifest_Ok.
  apply GetValue_two in Hlabels as (metadata & Hmeta & Hlab).
  apply (SetValue_two _ _ _ _ _ _ Hmeta) in Hset as ->.
  apply stripDependsOn_Ok in Hstrip as (spec & forProvider & _ & _ & ->).
  exists labels, encoded, writer1. simpl. split_and!; [done|done|done| | | |done].
  - eexists _, _. split_and!; [apply lookup_insert_eq..|apply lookup_delete_eq].
  - apply GetValue_two. eexists. split.
    + rewrite lookup_insert_ne by done. apply lookup_insert_eq.
    + by rewrite lookup_insert_ne.
  - apply GetValue_two. eexists. split.
    + rewrite lookup_insert_ne by done. apply lookup_insert_eq.
    + apply lookup_insert_eq.
Qed.

(** C6.  The document that [writeManifest] marshals has no [depends_on]
    key in its [spec.forProvider]: every successful call, for a primary
    manifest as for a dependency, writes the encoding of such a document
    and then the separator. *)
Theorem written_manifest_has_no_depends_on (writer writer' : W)
    (pm pm' : reference.PavedWithManifest) (ctx ctx' : reference.ResolutionContext) :
  writeManifest Write writer pm ctx = Ok (writer', pm', ctx') →
  ∃ (u spec forProvider : Params) (buff : string) (writer1 : W),
    yaml_Marshal u = Ok buff ∧
    Write buff writer = Ok writer1 ∧
    Write documentSeparator writer1 = Ok writer' ∧
    u !! "spec" = Some (VMap spec) ∧
    spec !! "forProvider" = Some (VMap forProvider) ∧
    forProvider !! "depends_on" = None.
Proof.
  intros (labels & encoded & writer1 & Hencoded & Hwrite1 & Hwrite2
          & (spec & forProvider & Hspec & Hfor & Hdep) & _)%writeManifest_document.
  by exists (reference.Paved pm'), spec, forProvider, encoded, writer1.
Qed.


End WriteManifest.

Section Rendering.
Context `{reference.Injector} `{Platform}.

(** Each call on a buffer appends one final document to the rendering. *)
Lemma writeManifest_rendering (docs : list Params) (writer writer' : string)
    (pm pm' : reference.PavedWithManifest) (ctx ctx' : reference.ResolutionContext) :
  rendering docs writer → Forall finalDocument docs →
  writeManifest bufferWrite writer pm ctx = Ok (writer', pm', ctx') →
  rendering (docs ++ [reference.Paved pm']) writer' ∧
  Forall finalDocument (docs ++ [reference.Paved pm']).
Proof.
  intros Hdocs Hfinal
    (labels & encoded & writer1 & Hencoded & [= <-] & [= <-] & Hdep & Hlabels & Hname & _)
    %writeManifest_document.
  split; [by constructor|].
  apply Forall_app. split; [done|]. apply Forall_singleton.
  split; [done|by exists labels].
Qed.

End Rendering.


(** ** The store phase *)

Section StoreFacts.
Context `{name.Package} `{reference.Syntax} `{reference.Injector} `{Platform}.
Variable sched : Schedule.

(** C10.  A dependency identifier whose wildcard resource name has no
    entry in [eg.resources] is skipped: with or without it in the sorted
    list, the loop appends the same documents and comes to the same
    outcome. *)
Theorem missing_dependency_is_skipped
    (eg : Generator) (rn : string) (re : registry.ResourceExample)
    (before after : list string) (dn : string)
    (buff : string) (context : reference.ResolutionContext) :
  resources eg !! reference.GetResourceName
                    (reference.NewRefPartsFromResourceName dn) true = None →
  storeDependencies sched eg rn re (before ++ dn :: after) buff context =
  storeDependencies sched eg rn re (before ++ after) buff context.
Proof.
  intros Hmissing. revert buff context.
  induction before as [|dn' before IH]; intros buff context; simpl.
  { by rewrite Hmissing. }
  destruct (resources eg !! reference.GetResourceName
                              (reference.NewRefPartsFromResourceName dn') true)
    as [dr|]; [|apply IH].
  destruct (wrap _ (TFParser_Unmarshal _)) as [exampleParams| |]; [|done..].
  simpl.
  destruct (wrap _ (writeManifest _ _ _ _)) as [[[buff' pmd] context']| |]; [|done..].
  apply IH.
Qed.


Section Range.
Variable rangeDependencies : gmap string string -> list string.




End Range.





(** The file of a resource is the rendering of final documents: its
    primary document, then those of its dependencies. *)
Lemma storeDependencies_rendering (eg : Generator) (rn : string)
    (re : registry.ResourceExample) (dKeys : list string) (docs : list Params)
    (buff buff' : string) (context : reference.ResolutionContext) :
  rendering docs buff → Forall finalDocument docs →
  storeDependencies sched eg rn re dKeys buff context = Ok buff' →
  ∃ docs', rendering (docs ++ docs') buff' ∧ Forall finalDocument (docs ++ docs').
Proof.
  revert docs buff context.
  induction dKeys as [|dn dKeys IH]; intros docs buff context Hdocs Hfinal; simpl.
  { intros [= <-]. exists []. by rewrite app_nil_r. }
  destruct (resources eg !! _) as [dr|]; [|by apply IH].
  intros (exampleParams & _ & Hrest)%bind_Ok.
  apply bind_Ok in Hrest as ([[buff1 pmd] context1] & Hwrite%wrap_Ok & Hrest).
  destruct (writeManifest_rendering docs _ _ _ _ _ _ Hdocs Hfinal Hwrite) as [Hdocs1 Hfinal1].
  destruct (IH _ _ _ Hdocs1 Hfinal1 Hrest) as (docs' & Hdocs' & Hfinal').
  exists (reference.Paved pmd :: docs'). by rewrite <- (assoc_L (++)) in Hdocs', Hfinal'.
Qed.

Lemma stored_file_rendering (rangeDependencies : gmap string string -> list string)
    (rn : string) (pm : reference.PavedWithManifest)
    (eg eg' : Generator) (fs fs' : FileSystem) :
  storeExample sched rangeDependencies rn pm eg fs = (Ok (), (eg', fs')) →
  ∃ (fs0 : FileSystem) (path data : string) (docs : list Params),
    os_MkdirAll (filepath_Dir (reference.ManifestPath pm)) fs = (None, fs0) ∧
    ioutil_WriteFile path data fs0 = (None, fs') ∧
    rendering docs data ∧ docs ≠ [] ∧ Forall finalDocument docs.
Proof.
  unfold storeExample.
  destruct (os_MkdirAll _ fs) as [[err|] fs0]; [done|].
  destruct (wrap _ (writeManifest _ _ _ _)) as [[[buff pm'] context]| |] eqn:Hprimary;
    [|done..].
  apply wrap_Ok in Hprimary.
  destruct (writeManifest_rendering [] _ _ _ _ _ _ rendering_empty (Forall_nil_2 _) Hprimary)
    as [Hdocs Hfinal].
  destruct (storeExampleDependencies _ _ _ _ _) as [data| |] eqn:Hdeps; [|done..].
  destruct (ioutil_WriteFile _ _ _) as [[err|] fs1] eqn:Hwrite; [done|].
  intros [= <- <-].
  assert (∃ docs, rendering ([reference.Paved pm'] ++ docs) data ∧
                  Forall finalDocument ([reference.Paved pm'] ++ docs))
    as (docs & Hall & Hfinal').
  { unfold storeExampleDependencies in Hdeps.
    destruct (configResources _ !! _) as [r|];
      [|injection Hdeps as <-; exists []; by rewrite app_nil_r].
    destruct (config.MetaResource r) as [meta|];
      [|injection Hdeps as <-; exists []; by rewrite app_nil_r].
    apply bind_Ok in Hdeps as (re & _ & Hdeps).
    apply bind_Ok in Hdeps as (context' & _ & Hdeps).
    by eapply storeDependencies_rendering. }
  by exists fs0, (reference.ManifestPath pm'), data, (reference.Paved pm' :: docs).
Qed.

End StoreFacts.

(** * The generator on concrete examples *)

Module Examples.
Import SpecModel.

Lemma snapshot_covers : covers snapshot.
Proof.
  intros namePrefix params n [v Hv]. unfold snapshot.
  apply list_elem_of_fmap. exists (n, v). split; [done|].
  by apply elem_of_map_to_list.
Qed.

(** The only field of a one-field schema that the rewrite loop
    touches is that field. *)
Lemma rewritten_single (r : config.Resource) (f : string) (sch : schema.Schema)
    (n : string) (u : value) (kw : string * value) :
  config.TerraformResource r = tableSchema {[ f := sch ]} →
  n ≠ f → rewritten r "" n u ≠ Some kw.
Proof.
  intros Hr Hn. rewrite rewritten_schema; [done|].
  unfold config.GetSchema. rewrite getHierarchicalName_root, Hr.
  unfold tableSchema. by apply lookup_singleton_ne.
Qed.

(** *** The secret-reference extractor *)

Definition fileExpr : string :=
  "${file(" +:+ String dquote ("key" +:+ String dquote ")}").

Example getSecretRef_resource :
  getSecretRef (VStr "${aws_db_instance.ex_db.password}")
  = Some ("example-db-instance", "attribute.password").
Proof. reflexivity. Qed.

Example getSecretRef_number : getSecretRef (VNum "42") = Some ("example-secret", "example-key").
Proof. reflexivity. Qed.

(** C7, counterexample.  The inner expression of [${file("key")}] has a
    single dot-separated component, and the extractor does not return
    the default key: the file reference is recognised first. *)
Lemma file_reference_is_not_defaulted :
  reference.ReRef_FindStringSubmatch fileExpr
    = [fileExpr; "file(" +:+ String dquote ("key" +:+ String dquote ")")] ∧
  length (split dot ("file(" +:+ String dquote ("key" +:+ String dquote ")"))) < 3 ∧
  getSecretRef (VStr fileExpr) = Some ("example-secret", "attribute.key") ∧
  getSecretRef (VStr fileExpr) ≠ Some ("example-secret", "example-key").
Proof. split_and!; [reflexivity|vm_compute; lia|reflexivity|discriminate]. Qed.

(** C7, witness: a text without interpolation, here the default name
    itself, falls back to the defaults. *)
Lemma extractor_is_total_and_falls_back_witness :
  fallsBack (VStr "example-secret") ∧
  getSecretRef (VStr "example-secret") = Some ("example-secret", "example-key").
Proof.
  assert (fallsBack (VStr "example-secret")) as Hfalls.
  { apply fallsBack_noMatch. vm_compute. lia. }
  split; [exact Hfalls|].
  exact (proj1 (proj2 (extractor_is_total_and_falls_back (VStr "example-secret"))) Hfalls).
Defined.

(** *** The sensitive field *)

Definition passwordResource : config.Resource :=
  resource "vault_db" "Database" [] ∅
           {[ "password" := field false true schema.TypeString ]} None.

(** C2, witness: the scenario under the reference implementation. *)
Lemma password_secret_ref_witness :
  transformFields passwordResource [] snapshot passwordTree "" =
  {[ "passwordSecretRef" :=
       VMap (<[ "name" := VStr "example-" ]>
             (<[ "namespace" := VStr "upbound-system" ]>
              {[ "key" := VStr "attribute.ex_db.password" ]})) ]}.
Proof.
  apply (password_secret_ref passwordResource [] snapshot
           (field false true schema.TypeString)).
  - apply snapshot_covers.
  - reflexivity.
  - reflexivity.
  - reflexivity.
  - intros path Hpath. by apply lookup_singleton_ne.
  - reflexivity.
  - reflexivity.
  - apply not_elem_of_nil.
Defined.

(** C2, counterexample: the value inserted under [passwordSecretRef] is
    not the one the scenario of the specification gives. *)
Lemma password_secret_ref_is_not_example_db :
  transformFields passwordResource [] snapshot passwordTree "" !! "password" = None ∧
  transformFields passwordResource [] snapshot passwordTree "" !! "passwordSecretRef" ≠
  Some (VMap (<[ "name" := VStr "example-db" ]>
              (<[ "namespace" := VStr "upbound-system" ]>
               {[ "key" := VStr "attribute.password" ]}))).
Proof. split; [reflexivity|]. vm_compute. discriminate. Qed.

(** *** Reference fields *)

Definition subnetReference : config.Reference :=
  {| config.TerraformName := "aws_subnet";
     config.RefFieldName := "";
     config.SelectorFieldName := "" |}.

Definition subnetResource : config.Resource :=
  resource "aws_instance" "Instance" []
           {[ "subnet_ids" := subnetReference ]}
           {[ "subnet_ids" := field false false schema.TypeList ]} None.

Definition subnetList : Params :=
  {[ "subnet_ids" := VList [VStr "${aws_subnet.first.id}"; VStr "subnet-0a1b"] ]}.

Definition subnetScalar : Params :=
  {[ "subnet_ids" := VStr "${aws_subnet.main.id}" ]}.

(** C1, witness: a sequence of two elements becomes a reference array
    of two [{name: ...}] objects. *)
Lemma reference_field_rewrite_witness :
  let out := transformFields subnetResource [] snapshot subnetList "" in
  out !! "subnet_ids" = None ∧
  ∃ refs, out !! "subnetIdsRefs" = Some (VMapList refs) ∧
          length refs = 2 ∧
          Forall (fun m => ∃ s, m = {[ "name" := VStr s ]}) refs.
Proof.
  refine (reference_field_rewrite subnetResource [] snapshot subnetList ""
            "subnet_ids" (VList [VStr "${aws_subnet.first.id}"; VStr "subnet-0a1b"])
            (field false false schema.TypeList) _ _ _ _ _ _ _ _ _).
  - apply snapshot_covers.
  - reflexivity.
  - apply not_elem_of_nil.
  - reflexivity.
  - reflexivity.
  - reflexivity.
  - discriminate.
  - reflexivity.
  - intros n' u w Hn'.
    split; by apply (rewritten_single subnetResource "subnet_ids"
                       (field false false schema.TypeList)).
Defined.

Example subnetList_transformed :
  transformFields subnetResource [] snapshot subnetList "" =
  {[ "subnetIdsRefs" := VMapList [ {[ "name" := VStr "first" ]};
                                   {[ "name" := VStr "example" ]} ] ]}.
Proof. reflexivity. Qed.

(** C1, counterexample: the schema cardinality of [subnet_ids] is list,
    the value is a scalar, and what is inserted is a selector; no key of
    the result holds a reference array. *)
Lemma scalar_under_list_schema_gets_selector :
  let out := transformFields subnetResource [] snapshot subnetScalar "" in
  config.GetSchema (config.TerraformResource subnetResource) "subnet_ids"
    = Some (field false false schema.TypeList) ∧
  out = {[ "subnetIdsSelector" :=
             VMap {[ "matchLabels" := VStrMap {[ labelExampleName := "main" ]} ]} ]} ∧
  ¬ ∃ k refs, out !! k = Some (VMapList refs).
Proof.
  assert (transformFields subnetResource [] snapshot subnetScalar "" =
          {[ "subnetIdsSelector" :=
               VMap {[ "matchLabels" := VStrMap {[ labelExampleName := "main" ]} ]} ]})
    as Hout by reflexivity.
  split_and!; [reflexivity|exact Hout|].
  intros (k & refs & Hk). rewrite Hout in Hk.
  apply lookup_singleton_Some in Hk as [_ Hk]. discriminate.
Qed.

(** *** Elision *)



Definition statusResource : config.Resource :=
  resource "aws_vpc" "VPC" ["tags_all"] ∅
           {[ "arn" := field true false schema.TypeString;
              "cidr_block" := field false false schema.TypeString ]} None.

Definition vpcTree : Params :=
  {[ "arn" := VStr "arn:aws:ec2:vpc/vpc-1"; "cidr_block" := VStr "10.0.0.0/16";
     "tags_all" := VMap {[ "env" := VStr "test" ]}; "depends_on" := VList [VStr "aws_x.y"] ]}.

Example vpcTree_transformed :
  transformFields statusResource (config.OmittedFields statusResource) snapshot vpcTree "" =
  {[ "cidrBlock" := VStr "10.0.0.0/16"; "depends_on" := VList [VStr "aws_x.y"] ]}.
Proof. reflexivity. Qed.


(** *** Fields outside the schema *)

Definition nestedOmission : config.Resource :=
  resource "aws_vpc" "VPC" ["tags.internal"] ∅ ∅ None.

Definition tagsTree : Params :=
  {[ "tags" := VMap {[ "internal" := VStr "yes"; "env" := VStr "test" ]} ]}.

(** C5, counterexample: [tags] is outside the schema and is not an
    omitted field, and its value after the transformation is not the
    one before: the nested [internal], an omitted path, is gone. *)
Lemma passthrough_value_is_transformed :
  let out := transformFields nestedOmission (config.OmittedFields nestedOmission)
               snapshot tagsTree "" in
  config.GetSchema (config.TerraformResource nestedOmission) "tags" = None ∧
  ("tags" ∉ config.OmittedFields nestedOmission) ∧
  out !! "tags" = Some (VMap {[ "env" := VStr "test" ]}) ∧
  out !! "tags" ≠ tagsTree !! "tags".
Proof.
  split_and!; [reflexivity| |reflexivity|vm_compute; discriminate].
  intros Hin. apply list_elem_of_singleton in Hin. discriminate.
Qed.

Definition clashResource : config.Resource :=
  resource "aws_vpc" "VPC" [] ∅
           {[ "cidr_block" := field false false schema.TypeString ]} None.

(** A field outside the schema is also overwritten when a schema field
    of the level is rewritten to its name. *)
Example passthrough_value_is_overwritten :
  transformFields clashResource [] snapshot
    {[ "cidrBlock" := VStr "kept?"; "cidr_block" := VStr "10.0.0.0/16" ]} ""
  = {[ "cidrBlock" := VStr "10.0.0.0/16" ]}.
Proof. reflexivity. Qed.

Definition mixedTree : Params :=
  {[ "labels" := VList [VStr "a"; VStr "b"]; "cidr_block" := VStr "10.0.0.0/16" ]}.

(** C5, witness: [labels], outside the schema and holding no tree,
    passes through with its value. *)
Lemma passthrough_outside_schema_witness :
  let out := transformFields clashResource [] snapshot mixedTree "" in
  let v := VList [VStr "a"; VStr "b"] in
  let v' := recurse clashResource [] snapshot v (getHierarchicalName "" "labels") in
  is_Some (out !! "labels") ∧
  ((∀ n' u w, rewritten clashResource "" n' u ≠ Some ("labels", w)) →
   out !! "labels" = Some v') ∧
  (holdsTree v = false → v' = v).
Proof.
  apply (passthrough_outside_schema clashResource [] snapshot mixedTree "" "labels"
           (VList [VStr "a"; VStr "b"])).
  - reflexivity.
  - apply not_elem_of_nil.
  - reflexivity.
Defined.

(** *** The store phase *)

Definition databaseExample : registry.ResourceExample :=
  {| registry.Name := "main_db";
     registry.Paved := {[ "engine" := VStr "postgres";
                          "depends_on" := VList [VStr "aws_network.net"] ]};
     registry.Dependencies := {[ "aws_network.net" := "{cidr}";
                                 "aws_missing.other" := "{zone}" ]} |}.

Definition databaseResource : config.Resource :=
  resource "aws_database" "Database" [] ∅
           {[ "engine" := field false false schema.TypeString ]}
           (Some {| registry.Examples := [databaseExample] |}).

Definition networkResource : config.Resource :=
  resource "aws_network" "Network" [] ∅ ∅ None.

Definition withManifestPath (path : string) (pm : reference.PavedWithManifest)
  : reference.PavedWithManifest :=
  {| reference.Paved := reference.Paved pm;
     reference.ManifestPath := path;
     reference.ParamsPrefix := reference.ParamsPrefix pm;
     reference.Config := reference.Config pm;
     reference.Group := reference.Group pm;
     reference.Version := reference.Version pm;
     reference.ExampleName := reference.ExampleName pm |}.

Definition keysOf (m : gmap string string) : list string := map fst (map_to_list m).

Definition databaseManifest : reference.PavedWithManifest :=
  withManifestPath "out/database/database.yaml"
    (@paveCRManifest names refs snapshot (registry.Paved databaseExample)
       databaseResource "main_db" "database.example.org" "v1beta1").

Definition networkManifest : reference.PavedWithManifest :=
  withManifestPath "out/network/network.yaml"
    (@paveCRManifest names refs snapshot {[ "cidr" := VStr "10.0.0.0/16" ]}
       networkResource "net" "network.example.org" "v1beta1").

Definition generator : Generator :=
  {| rootDir := "out";
     configResources := {[ "aws_database" := databaseResource;
                           "aws_network" := networkResource ]};
     resources := {[ "aws_database.*" := databaseManifest;
                     "aws_network.*" := networkManifest ]} |}.

Definition noContext : reference.ResolutionContext :=
  {| reference.WildcardNames := true; reference.Context := ∅ |}.

Example sorted_dependencies : sortStrings ["b.x"; "a.y"] = ["a.y"; "b.x"].
Proof. reflexivity. Qed.

(** C6, witness: the parameters of the example hold [depends_on]; the
    written document does not. *)
Lemma written_manifest_has_no_depends_on_witness :
  ∃ writer' pm' ctx',
    @writeManifest injector (platform []) string bufferWrite "" databaseManifest noContext
      = Ok (writer', pm', ctx') ∧
    ∃ (u spec forProvider : Params) (buff : string) (writer1 : string),
      @yaml_Marshal (platform []) u = Ok buff ∧
      bufferWrite buff "" = Ok writer1 ∧
      bufferWrite documentSeparator writer1 = Ok writer' ∧
      u !! "spec" = Some (VMap spec) ∧
      spec !! "forProvider" = Some (VMap forProvider) ∧
      forProvider !! "depends_on" = None.
Proof.
  destruct (@writeManifest injector (platform []) string bufferWrite ""
              databaseManifest noContext)
    as [[[writer' pm'] ctx']| |] eqn:Hwrite; [|vm_compute in Hwrite; discriminate..].
  exists writer', pm', ctx'. split; [reflexivity|].
  exact (@written_manifest_has_no_depends_on injector (platform []) string bufferWrite
           "" writer' databaseManifest pm' noContext ctx' Hwrite).
Defined.

Example databaseManifest_written :
  @writeManifest injector (platform []) string bufferWrite "" databaseManifest noContext
  ≫= (fun '(writer, _, _) => Ok writer)
  = Ok ("map[apiVersion:database.example.org/v1beta1 kind:Database "
        +:+ "metadata:map[labels:map[testing.upbound.io/example-name:main_db] "
        +:+ "name:main-db] spec:map[forProvider:map[engine:postgres]]]"
        +:+ documentSeparator).
Proof. reflexivity. Qed.


(** C10, witness: [aws_missing.other] has no [aws_missing.*] entry in
    the resources of the generator. *)
Lemma missing_dependency_is_skipped_witness :
  resources generator !! "aws_missing.*" = None ∧
  @storeDependencies names refs injector (platform []) snapshot generator
    "aws_database.*" databaseExample (["aws_missing.other"] ++ ["aws_network.net"])
    "primary" noContext =
  @storeDependencies names refs injector (platform []) snapshot generator
    "aws_database.*" databaseExample ([] ++ ["aws_network.net"])
    "primary" noContext.
Proof.
  split; [reflexivity|].
  apply (@missing_dependency_is_skipped names refs injector (platform []) snapshot
           generator "aws_database.*" databaseExample [] ["aws_network.net"]
           "aws_missing.other" "primary" noContext).
  reflexivity.
Defined.




Example store_both :
  @StoreExamples names refs injector (platform []) snapshot keysOf
    ["aws_database.*"; "aws_network.*"] generator ∅
  = (Ok (),
     (withResources
        (<[ "aws_network.*" := withPaved
              (<[ "metadata" := VMap (<[ "name" := VStr "net" ]>
                    {[ "labels" := VStrMap {[ labelExampleName := "net" ]} ]}) ]>
                 (reference.Paved networkManifest))
              (withExampleName "net" networkManifest) ]>
         (<[ "aws_database.*" := withPaved
               (<[ "spec" := VMap {[ "forProvider" :=
                                       VMap {[ "engine" := VStr "postgres" ]} ]} ]>
                (<[ "metadata" := VMap (<[ "name" := VStr "main-db" ]>
                      {[ "labels" := VStrMap {[ labelExampleName := "main_db" ]} ]}) ]>
                   (reference.Paved databaseManifest)))
               (withExampleName "main-db" databaseManifest) ]>
            (resources generator)))
        generator,
      {[ "out/database/database.yaml" :=
           "map[apiVersion:database.example.org/v1beta1 kind:Database "
           +:+ "metadata:map[labels:map[testing.upbound.io/example-name:main_db] "
           +:+ "name:main-db] spec:map[forProvider:map[engine:postgres]]]"
           +:+ documentSeparator
           +:+ "map[apiVersion:network.example.org/v1beta1 kind:Network "
           +:+ "metadata:map[labels:map[testing.upbound.io/example-name:net] "
           +:+ "name:net] spec:map[forProvider:map[blob:{cidr}]]]"
           +:+ documentSeparator;
         "out/network/network.yaml" :=
           "map[apiVersion:network.example.org/v1beta1 kind:Network "
           +:+ "metadata:map[labels:map[testing.upbound.io/example-name:net] "
           +:+ "name:net] spec:map[forProvider:map[cidr:10.0.0.0/16]]]"
           +:+ documentSeparator ]})).
Proof. vm_compute. reflexivity. Qed.



End Examples.
